(** * A shallow embedding of the SIWE notepad client (src/providers.ts)

    The client is an event-driven browser script.  We model it as:
    - a record [st] holding the DOM attributes and module globals the
      script reads and writes;
    - programs [prog]: the body of each handler, as a tree of synchronous
      updates, reads, log entries and awaited external requests (fetch,
      wallet provider calls); a pending [Await] is resumed when its answer
      is delivered;
    - a machine [machine]: the current [st], the continuations waiting on
      answers, the trace of observable effects (requests sent, alerts,
      console errors), and the Mousetrap bindings;
    - [step]: one event of the environment (an answer arriving, a user
      input or click, the hotkey, a signer-change notification). *)

From Stdlib Require Import String Ascii List ZArith Bool Lia.
Import ListNotations.
Open Scope Z_scope.

(** ** JavaScript strings and values *)

(** A JavaScript string is a sequence of UTF-16 code units. *)
Definition jsstr := list Z.

(** ASCII literals of the source, as code units. *)
Definition js (s : string) : jsstr :=
  map (fun c => Z.of_nat (nat_of_ascii c)) (list_ascii_of_string s).

Definition jsstr_eqb (a b : jsstr) : bool :=
  if list_eq_dec Z.eq_dec a b then true else false.

Inductive jsval :=
| JUndefined
| JNull
| JBool (b : bool)
| JNumber (z : Z)
| JString (s : jsstr)
| JObject (id : nat).

(** The [typeof] operator: it always yields a string. *)
Definition typeof (v : jsval) : jsval :=
  JString (js match v with
               | JUndefined => "undefined"
               | JNull => "object"
               | JBool _ => "boolean"
               | JNumber _ => "number"
               | JString _ => "string"
               | JObject _ => "object"
               end).

(** Strict equality [===] (no NaN among the modelled numbers). *)
Definition strict_equals (a b : jsval) : bool :=
  match a, b with
  | JUndefined, JUndefined => true
  | JNull, JNull => true
  | JBool x, JBool y => Bool.eqb x y
  | JNumber x, JNumber y => Z.eqb x y
  | JString x, JString y => jsstr_eqb x y
  | JObject x, JObject y => Nat.eqb x y
  | _, _ => false
  end.

Definition truthy (v : jsval) : bool :=
  match v with
  | JUndefined | JNull => false
  | JBool b => b
  | JNumber z => negb (Z.eqb z 0)
  | JString s => negb (jsstr_eqb s [])
  | JObject _ => true
  end.

(** [a ?? b] for a string-or-nullish value [a]. *)
Definition nullish_or (a : option jsstr) (b : jsstr) : jsstr :=
  match a with Some x => x | None => b end.

(** ** JSON.stringify and Buffer.byteLength *)

Definition is_high_surrogate (u : Z) : bool := (0xD800 <=? u) && (u <=? 0xDBFF).
Definition is_low_surrogate (u : Z) : bool := (0xDC00 <=? u) && (u <=? 0xDFFF).
Definition is_surrogate (u : Z) : bool := (0xD800 <=? u) && (u <=? 0xDFFF).

Definition hex_digit (d : Z) : Z := if d <? 10 then 48 + d else 87 + d.

(** [\uXXXX] with lowercase hex digits, as QuoteJSONString writes it. *)
Definition unicode_escape (u : Z) : jsstr :=
  [92; 117; hex_digit ((u / 4096) mod 16); hex_digit ((u / 256) mod 16);
   hex_digit ((u / 16) mod 16); hex_digit (u mod 16)].

(** The escape of one code unit that is not part of a surrogate pair. *)
Definition quote_unit (u : Z) : jsstr :=
  if u =? 8 then [92; 98]
  else if u =? 9 then [92; 116]
  else if u =? 10 then [92; 110]
  else if u =? 12 then [92; 102]
  else if u =? 13 then [92; 114]
  else if u =? 34 then [92; 34]
  else if u =? 92 then [92; 92]
  else if u <? 32 then unicode_escape u
  else if is_surrogate u then unicode_escape u
  else [u].

(** The body of QuoteJSONString: well-formed surrogate pairs are copied,
    lone surrogates and control characters escaped. *)
Fixpoint quote_units (l : jsstr) : jsstr :=
  match l with
  | [] => []
  | u :: rest =>
      if is_high_surrogate u then
        match rest with
        | v :: rest' =>
            if is_low_surrogate v then u :: v :: quote_units rest'
            else quote_unit u ++ quote_units rest
        | [] => quote_unit u
        end
      else quote_unit u ++ quote_units rest
  end.

(** [JSON.stringify({ text })] for a string [text]: [{"text":"..."}]. *)
Definition JSON_stringify_text (text : jsstr) : jsstr :=
  [123; 34] ++ js "text" ++ [34; 58; 34] ++ quote_units text ++ [34; 125].

(** [Buffer.byteLength(s)]: the length of the UTF-8 encoding of [s], a lone
    surrogate being encoded as U+FFFD (3 bytes). *)
Fixpoint byteLength (l : jsstr) : Z :=
  match l with
  | [] => 0
  | u :: rest =>
      if u <? 0x80 then 1 + byteLength rest
      else if u <? 0x800 then 2 + byteLength rest
      else if is_high_surrogate u then
        match rest with
        | v :: rest' =>
            if is_low_surrogate v then 4 + byteLength rest'
            else 3 + byteLength rest
        | [] => 3
        end
      else 3 + byteLength rest
  end.

(** ** What [new SiweMessage(...)] checks (the siwe library)

    The constructor replaces an empty nonce with one of [generateNonce()],
    then validates the message and throws a [SiweError] when a field is
    rejected: an empty domain, an address that is not in EIP-55 checksum
    form, a uri that [isUri] (valid-url) refuses, a version other than "1",
    a nonce that is not at least 8 alphanumeric characters.  The EIP-55
    check hashes the lowercase address with Keccak-256. *)

(** *** Keccak-256 (the original Keccak padding, as Ethereum uses it) *)

Definition mask64 : Z := Z.ones 64.

Definition rotl64 (x n : Z) : Z :=
  Z.land (Z.lor (Z.shiftl x n) (Z.shiftr x (64 - n))) mask64.

(** The state: 25 lanes of 64 bits, lane (x, y) at index x + 5 y. *)
Definition lane (A : list Z) (x y : nat) : Z := nth (x + 5 * y) A 0.

Definition theta (A : list Z) : list Z :=
  let C x := fold_left Z.lxor (map (fun y => lane A x y) (seq 0 5)) 0 in
  let D x := Z.lxor (C ((x + 4) mod 5)%nat) (rotl64 (C ((x + 1) mod 5)%nat) 1) in
  map (fun i => Z.lxor (nth i A 0) (D (i mod 5)%nat)) (seq 0 25).

Definition rho_offsets : list Z :=
  [0; 1; 62; 28; 27; 36; 44; 6; 55; 20; 3; 10; 43; 25; 39;
   41; 45; 15; 21; 8; 18; 2; 61; 56; 14].

(** rho and pi: lane (X, Y) of the result is lane (x, X) rotated, with
    Y = 2x + 3X mod 5, that is x = X + 3Y mod 5. *)
Definition rho_pi (A : list Z) : list Z :=
  map (fun i => let X := (i mod 5)%nat in let Y := (i / 5)%nat in
                let x := ((X + 3 * Y) mod 5)%nat in
                rotl64 (lane A x X) (nth (x + 5 * X) rho_offsets 0)) (seq 0 25).

Definition chi (B : list Z) : list Z :=
  map (fun i => let x := (i mod 5)%nat in let y := (i / 5)%nat in
                Z.lxor (lane B x y)
                       (Z.land (Z.lxor (lane B ((x + 1) mod 5) y) mask64)
                               (lane B ((x + 2) mod 5) y))) (seq 0 25).

Definition round_constants : list Z :=
  [0x0000000000000001; 0x0000000000008082; 0x800000000000808A; 0x8000000080008000;
   0x000000000000808B; 0x0000000080000001; 0x8000000080008081; 0x8000000000008009;
   0x000000000000008A; 0x0000000000000088; 0x0000000080008009; 0x000000008000000A;
   0x000000008000808B; 0x800000000000008B; 0x8000000000008089; 0x8000000000008003;
   0x8000000000008002; 0x8000000000000080; 0x000000000000800A; 0x800000008000000A;
   0x8000000080008081; 0x8000000000008080; 0x0000000080000001; 0x8000000080008008].

Definition keccak_round (A : list Z) (rc : Z) : list Z :=
  match chi (rho_pi (theta A)) with
  | a0 :: rest => Z.lxor a0 rc :: rest                 (* iota *)
  | [] => []
  end.

Definition keccak_f (A : list Z) : list Z := fold_left keccak_round round_constants A.

(** Rate of Keccak-256: 1088 bits. *)
Definition keccak_rate : nat := 136.

Definition keccak_pad (msg : list Z) : list Z :=
  let q := (keccak_rate - length msg mod keccak_rate)%nat in
  if Nat.eqb q 1 then msg ++ [0x81]
  else msg ++ [0x01] ++ repeat 0 (q - 2) ++ [0x80].

(** Bytes to lanes, little-endian. *)
Definition lane_of_bytes (b : list Z) : Z := fold_right (fun byte acc => byte + 256 * acc) 0 b.

Fixpoint lanes_of_bytes (fuel : nat) (b : list Z) : list Z :=
  match fuel, b with
  | O, _ | _, [] => []
  | S f, _ => lane_of_bytes (firstn 8 b) :: lanes_of_bytes f (skipn 8 b)
  end.

Fixpoint xor_lanes (A block : list Z) : list Z :=
  match A, block with
  | a :: A', b :: block' => Z.lxor a b :: xor_lanes A' block'
  | _, [] => A
  | [], _ => []
  end.

Fixpoint absorb (fuel : nat) (A msg : list Z) : list Z :=
  match fuel, msg with
  | O, _ | _, [] => A
  | S f, _ => absorb f (keccak_f (xor_lanes A (lanes_of_bytes 17 (firstn keccak_rate msg))))
                     (skipn keccak_rate msg)
  end.

Definition bytes_of_lane (x : Z) : list Z :=
  map (fun k => Z.land (Z.shiftr x (8 * Z.of_nat k)) 255) (seq 0 8).

Definition keccak256 (msg : list Z) : list Z :=
  let p := keccak_pad msg in
  flat_map bytes_of_lane (firstn 4 (absorb (length p) (repeat 0 25) p)).

(** The digits of the lowercase hex form of a digest, as numbers. *)
Definition hex_nibbles (b : list Z) : list Z :=
  flat_map (fun x => [Z.shiftr x 4; Z.land x 15]) b.

(** *** Character classes and case mapping (ASCII) *)

Definition is_digit (u : Z) : bool := (48 <=? u) && (u <=? 57).
Definition is_upper (u : Z) : bool := (65 <=? u) && (u <=? 90).
Definition is_lower (u : Z) : bool := (97 <=? u) && (u <=? 122).
Definition is_alnum (u : Z) : bool := is_digit u || is_upper u || is_lower u.
Definition is_hex (u : Z) : bool :=
  is_digit u || ((97 <=? u) && (u <=? 102)) || ((65 <=? u) && (u <=? 70)).
Definition to_lower (u : Z) : Z := if is_upper u then u + 32 else u.
Definition to_upper (u : Z) : Z := if is_lower u then u - 32 else u.

Definition is_one_of (cs : jsstr) (u : Z) : bool := existsb (Z.eqb u) cs.

(** The longest prefix whose code units satisfy [p], and the rest. *)
Fixpoint span (p : Z -> bool) (l : jsstr) : jsstr * jsstr :=
  match l with
  | u :: l' => if p u then let '(a, b) := span p l' in (u :: a, b) else ([], l)
  | [] => ([], [])
  end.

(** *** isEIP55Address *)

(** [s.replace('0x', '')]: the first occurrence only. *)
Fixpoint replace_first_0x (l : jsstr) : jsstr :=
  match l with
  | 48 :: 120 :: rest => rest
  | u :: rest => u :: replace_first_0x rest
  | [] => []
  end.

(** [address] has 42 characters and equals "0x" followed by the lowercase
    address, each character upper-cased where the matching hex digit of
    [keccak256(lowerAddress)] is 8 or more.  Case mapping and the UTF-8
    encoding of the hashed string are modelled on ASCII, so an address with
    another code unit is refused (the wallet's addresses come from ethers,
    which writes "0x" and 40 hex digits). *)
Definition isEIP55Address (address : jsstr) : bool :=
  forallb (fun u => u <? 128) address && Nat.eqb (length address) 42 &&
  let lowerAddress := replace_first_0x (map to_lower address) in
  let hash := hex_nibbles (keccak256 lowerAddress) in
  jsstr_eqb address
    (js "0x" ++ map (fun '(c, h) => if 8 <=? h then to_upper c else c)
                    (combine lowerAddress hash)).

(** *** isUri (valid-url) *)

Definition uri_char (u : Z) : bool :=
  is_alnum u || is_one_of (js ":/?#[]@!$&'()*+,;=.-_~%") u.

(** [/%[^0-9a-f]/i] or [/%[0-9a-f](:?[^0-9a-f]|$)/i] matches somewhere. *)
Fixpoint bad_percent (l : jsstr) : bool :=
  match l with
  | [] => false
  | 37 :: rest =>
      match rest with
      | [] => false
      | c :: rest' =>
          negb (is_hex c) ||
          match rest' with [] => true | d :: _ => negb (is_hex d) end ||
          bad_percent rest
      end
  | _ :: rest => bad_percent rest
  end.

(** The scheme group of the RFC 3986 splitting regex
    [(?:([^:\/?#]+):)?]: the longest run before a colon, if not empty. *)
Definition split_scheme (l : jsstr) : option jsstr * jsstr :=
  let '(sc, rest) := span (fun u => negb (is_one_of (js ":/?#") u)) l in
  match sc, rest with
  | _ :: _, 58 :: rest' => (Some sc, rest')
  | _, _ => (None, l)
  end.

(** The authority group of that regex: after "//", the longest run of
    characters other than '/', '?' and '#'. *)
Definition split_authority (l : jsstr) : option jsstr * jsstr :=
  match l with
  | 47 :: 47 :: rest =>
      let '(a, r) := span (fun u => negb (is_one_of (js "/?#") u)) rest in (Some a, r)
  | _ => (None, l)
  end.

(** [isUri(value)] is truthy. *)
Definition isUri (value : jsstr) : bool :=
  match value with
  | [] => false
  | _ =>
    forallb uri_char value && negb (bad_percent value) &&
    let '(scheme, rest) := split_scheme value in
    let '(authority, rest) := split_authority rest in
    let path := fst (span (fun u => negb (is_one_of (js "?#") u)) rest) in
    match scheme with
    | None | Some [] => false
    | Some (c :: cs) =>
        (match authority with
         | Some (_ :: _) => match path with [] => true | u :: _ => Z.eqb u 47 end
         | _ => match path with 47 :: 47 :: _ => false | _ => true end
         end) &&
        is_lower (to_lower c) && forallb (fun u => is_alnum u || is_one_of (js "+-.") u) cs
    end
  end.

(** ** Data exchanged with the wallet and the backend *)

Module Siwe.
(** The nonce of a message: the one passed to the constructor, or the
    random alphanumeric string of [generateNonce()] (at least 8
    characters) when that one is empty; its value is not observed here. *)
Inductive nonce_value := Given (n : jsstr) | Generated.

(** A [SiweMessage] built from the fields passed to [new SiweMessage({...})]. *)
Record message := mkMessage {
  domain : jsstr;
  address : jsstr;
  chainId : Z;
  uri : jsstr;
  version : jsstr;
  statement : jsstr;
  nonce : nonce_value
}.

Definition nonce_ok (n : nonce_value) : bool :=
  match n with
  | Given n => Nat.leb 8 (length n) && forallb is_alnum n
  | Generated => true
  end.

(** [validateMessage()]: [None] when the message is accepted, otherwise the
    message of the [SiweError] thrown. *)
Definition validateMessage (m : message) : option string :=
  if jsstr_eqb (domain m) [] then Some "Invalid domain."%string
  else if negb (isEIP55Address (address m)) then Some "Invalid address."%string
  else if negb (isUri (uri m)) then Some "URI does not conform to RFC 3986."%string
  else if negb (jsstr_eqb (version m) (js "1")) then Some "Invalid message version."%string
  else if negb (nonce_ok (nonce m))
  then Some "Nonce size smaller then 8 characters or is not alphanumeric."%string
  else None.

(** [new SiweMessage({ domain, address, chainId, uri, version, statement,
    nonce })]: [this.nonce = this.nonce || generateNonce()], then
    [validateMessage()]. *)
Definition new_SiweMessage (domain address : jsstr) (chainId : Z)
    (uri version statement nonce : jsstr) : message + string :=
  let m := mkMessage domain address chainId uri version statement
             (if jsstr_eqb nonce [] then Generated else Given nonce) in
  match validateMessage m with
  | None => inl m
  | Some error => inr error
  end.
End Siwe.

Module Api.
(** The JSON object [{ text, address, ens }] returned by /api/me and
    /api/sign_in; [ens] may be null. *)
Record user := mkUser {
  text : jsstr;
  address : jsstr;
  ens : option jsstr
}.
End Api.

(** The ethers provider held in [wagmiProvider]: the Web3Provider built on
    [window.ethereum], or the provider of a wagmi signer. *)
Inductive provider :=
| InjectedWeb3Provider
| SignerProvider (id : nat).

(** What [watchSigner] reports: no signer, a signer without a provider, or
    a signer with its provider. *)
Inductive signer_obs :=
| NoSigner
| SignerWithoutProvider
| SignerWithProvider (p : provider).

Inductive fetch_body :=
| NoBody
| JsonBody (s : jsstr)
(** [JSON.stringify({ message, ens, signature })] *)
| SignInBody (m : Siwe.message) (ens signature : jsstr).

(** Requests leaving the page: a fetch, or a call on the wallet provider.
    [SignMessage p m] is [p.getSigner().signMessage(m.prepareMessage())]:
    a signature over the canonical EIP-4361 text of [m], which the siwe
    library produces. *)
Inductive request :=
| Fetch (method url : string) (body : fetch_body)
| EthRequestAccounts
| ListAccounts (p : provider)
| LookupAddress (p : provider) (address : jsstr)
| GetNetwork (p : provider)
| SignMessage (p : provider) (m : Siwe.message).

(** How an awaited promise settles.  [Response status json] is a fetch
    response together with the value of [res.json()]: [None] when the body
    does not parse, [Some u] for the object [{ text, address, ens }] (where
    the code only logs the parsed body, only whether it parses matters);
    [Text] is the value of the [fetch(...).then(res => res.text())]
    chain. *)
Inductive answer :=
| Rejected
| Response (status : Z) (json : option Api.user)
| Text (s : jsstr)
| Accounts (l : list jsstr)
| Name (n : option jsstr)
| Network (chainId : Z)
| Signature (s : jsstr)
| Resolved.

(** Observable effects. *)
Inductive event :=
| Sent (r : request)
| Alerted (msg : string)
| ConsoleError
| Thrown (msg : string)
| ModalOpened.

(** ** The page state: DOM attributes and module globals *)

Record st := mkSt {
  metamaskButton_hidden : bool;
  walletConnectButton_hidden : bool;
  closeButton_onclick_signOut : bool;
  closeButton_disabled : bool;
  saveButton_hidden : bool;
  saveButton_onclick_save : bool;
  saveButton_disabled : bool;
  disconnectButton_hidden : bool;
  unsaved_innerText : jsstr;
  window_onbeforeunload : bool;
  notepad_value : jsstr;
  title_innerText : jsstr;
  wagmiProvider : option provider;
  (* read-only environment *)
  window_ethereum : jsval;
  location_host : jsstr;
  location_origin : jsstr
}.

(** The module constant [const metamask = window.ethereum]. *)
Definition metamask (s : st) : jsval := window_ethereum s.

(** ** Programs *)

Inductive prog :=
| Ret
| Upd (f : st -> st) (k : prog)
| Get (k : st -> prog)
| Log (e : event) (k : prog)
| Await (r : request) (k : answer -> prog)
(** [Spawn p k]: call the async function [p] without awaiting it: [p] runs
    up to its first await, then [k] goes on. *)
| Spawn (p : prog) (k : prog).

Record machine := mkMachine {
  cur : st;
  pending : list (request * (answer -> prog));
  trace : list event;             (* most recent first *)
  mousetrap_mod_s : bool          (* [Mousetrap.bind("mod+s", ...)] *)
}.

Definition set_cur (s : st) (m : machine) : machine :=
  mkMachine s (pending m) (trace m) (mousetrap_mod_s m).

Definition log (e : event) (m : machine) : machine :=
  mkMachine (cur m) (pending m) (e :: trace m) (mousetrap_mod_s m).

(** Run a program until it finishes or blocks on an awaited request. *)
Fixpoint run (p : prog) (m : machine) : machine :=
  match p with
  | Ret => m
  | Upd f k => run k (set_cur (f (cur m)) m)
  | Get k => run (k (cur m)) m
  | Log e k => run k (log e m)
  | Await r k =>
      mkMachine (cur m) (pending m ++ [(r, k)]) (Sent r :: trace m)
                (mousetrap_mod_s m)
  | Spawn p k => run k (run p m)
  end.

Fixpoint remove_nth {A} (i : nat) (l : list A) : list A :=
  match l, i with
  | [], _ => []
  | _ :: l', O => l'
  | x :: l', S i' => x :: remove_nth i' l'
  end.

(** The [i]-th pending request settles with [a]. *)
Definition deliver (i : nat) (a : answer) (m : machine) : machine :=
  match nth_error (pending m) i with
  | None => m
  | Some (_, k) =>
      run (k a) (mkMachine (cur m) (remove_nth i (pending m)) (trace m)
                           (mousetrap_mod_s m))
  end.

(** ** DOM and global writes, one per kind of assignment in the source *)

Definition set_metamaskButton_hidden (x : bool) (s : st) : st :=
  let 'mkSt _ b c d e f g h i j k l m n o p := s in mkSt x b c d e f g h i j k l m n o p.
Definition set_walletConnectButton_hidden (x : bool) (s : st) : st :=
  let 'mkSt a _ c d e f g h i j k l m n o p := s in mkSt a x c d e f g h i j k l m n o p.
Definition set_closeButton_onclick_signOut (x : bool) (s : st) : st :=
  let 'mkSt a b _ d e f g h i j k l m n o p := s in mkSt a b x d e f g h i j k l m n o p.
Definition set_closeButton_disabled (x : bool) (s : st) : st :=
  let 'mkSt a b c _ e f g h i j k l m n o p := s in mkSt a b c x e f g h i j k l m n o p.
Definition set_saveButton_hidden (x : bool) (s : st) : st :=
  let 'mkSt a b c d _ f g h i j k l m n o p := s in mkSt a b c d x f g h i j k l m n o p.
Definition set_saveButton_onclick_save (x : bool) (s : st) : st :=
  let 'mkSt a b c d e _ g h i j k l m n o p := s in mkSt a b c d e x g h i j k l m n o p.
Definition set_saveButton_disabled (x : bool) (s : st) : st :=
  let 'mkSt a b c d e f _ h i j k l m n o p := s in mkSt a b c d e f x h i j k l m n o p.
Definition set_disconnectButton_hidden (x : bool) (s : st) : st :=
  let 'mkSt a b c d e f g _ i j k l m n o p := s in mkSt a b c d e f g x i j k l m n o p.
Definition updateUnsavedChanges (x : jsstr) (s : st) : st :=
  let 'mkSt a b c d e f g h _ j k l m n o p := s in mkSt a b c d e f g h x j k l m n o p.
Definition set_window_onbeforeunload (x : bool) (s : st) : st :=
  let 'mkSt a b c d e f g h i _ k l m n o p := s in mkSt a b c d e f g h i x k l m n o p.
Definition updateNotepad (x : jsstr) (s : st) : st :=
  let 'mkSt a b c d e f g h i j _ l m n o p := s in mkSt a b c d e f g h i j x l m n o p.
Definition updateTitle (x : jsstr) (s : st) : st :=
  let 'mkSt a b c d e f g h i j k _ m n o p := s in mkSt a b c d e f g h i j k x m n o p.
Definition set_wagmiProvider (x : option provider) (s : st) : st :=
  let 'mkSt a b c d e f g h i j k l _ n o p := s in mkSt a b c d e f g h i j k l x n o p.

(** ** The synchronous helpers *)

(** [blockSave] *)
Definition blockSave (s : st) : st :=
  let s := set_saveButton_onclick_save false s in      (* removeEventListener *)
  let s := set_saveButton_disabled true s in
  let s := updateUnsavedChanges [] s in
  set_window_onbeforeunload false s.                   (* = null *)

(** [enableSave] *)
Definition enableSave (s : st) : st :=
  let s := set_saveButton_onclick_save true s in       (* addEventListener *)
  let s := set_saveButton_disabled false s in
  let s := updateUnsavedChanges (js "- (***Unsaved Changes***)") s in
  set_window_onbeforeunload true s.

(** [connectedState(text, address, ens)] *)
Definition connectedState (text address : jsstr) (ens : option jsstr) (s : st) : st :=
  let s := set_metamaskButton_hidden true s in
  let s := set_walletConnectButton_hidden true s in
  let s := set_closeButton_onclick_signOut true s in
  let s := set_closeButton_disabled false s in
  let s := set_saveButton_hidden false s in
  let s := set_disconnectButton_hidden false s in
  let s := if negb (jsstr_eqb text []) then updateNotepad text s else s in
  let s := blockSave s in
  updateTitle (nullish_or ens address) s.

Definition connectedState_of (u : Api.user) : st -> st :=
  connectedState (Api.text u) (Api.address u) (Api.ens u).

(** [disconnectedState()] *)
Definition disconnectedState (s : st) : st :=
  let s := if negb (strict_equals (typeof (metamask s)) JUndefined)
           then set_metamaskButton_hidden false s else s in
  let s := set_walletConnectButton_hidden false s in
  let s := set_closeButton_onclick_signOut false s in
  let s := set_closeButton_disabled true s in
  let s := set_saveButton_hidden true s in
  set_disconnectButton_hidden true s.

(** ** The asynchronous functions *)

Definition statusOK (status : Z) : bool := Z.eqb status 200.

(** The handler [async (res) => {...}] chained on the /api/sign_in fetch;
    each branch calls [res.json().then(...)], which does nothing when the
    body does not parse. *)
Definition signIn_response (a : answer) : prog :=
  match a with
  | Response status json =>
      if statusOK status then
        match json with
        | Some u => Upd (connectedState_of u) Ret
        | None => Ret
        end
      else
        match json with
        | Some _ => Log ConsoleError Ret           (* console.error(err) *)
        | None => Ret
        end
  | _ => Ret                                     (* the fetch rejects *)
  end.

(** The tail of [signIn] from the creation of the message: [chainId] is
    awaited between the reads of [document.location.host] and
    [document.location.origin]; a [SiweError] of the constructor is
    thrown out of [signIn]. *)
Definition signIn_message (provider : provider) (address ens nonce : jsstr) : prog :=
  Get (fun s =>
  let domain := location_host s in
  Await (GetNetwork provider) (fun a =>
  match a with
  | Network chainId =>
    Get (fun s =>
    match Siwe.new_SiweMessage domain address chainId (location_origin s)
            (js "1") (js "SIWE Notepad Example") nonce with
    | inr error => Log (Thrown error) Ret
    | inl message =>
      Await (SignMessage provider message) (fun a =>
      match a with
      | Signature signature =>
        (* fetch(`/api/sign_in`, ...).then(...) *)
        Await (Fetch "POST" "/api/sign_in" (SignInBody message ens signature))
              signIn_response
      | _ => Ret                                (* signMessage rejects *)
      end)
    end)
  | _ => Ret                                    (* getNetwork rejects *)
  end)).

(** [signIn(provider)] *)
Definition signIn (provider : provider) : prog :=
  Await (ListAccounts provider) (fun a =>
  match a with
  | Accounts accounts =>
    let address := match accounts with [] => [] | x :: _ => x end in
    (* [!address]: undefined or the empty string *)
    if jsstr_eqb address [] then Log (Thrown "Address not found.") Ret
    else
      (* let ens = ""; try { ens = (await lookupAddress(address)) ?? "" }
         catch (error) { console.error(error) } *)
      Await (LookupAddress provider address) (fun a =>
      let '(ens, caught) :=
        match a with
        | Name n => (nullish_or n [], false)
        | _ => ([], true)
        end in
      (if caught then Log ConsoleError else fun k => k)
      (Upd (updateTitle (nullish_or (Some ens) address))
      (Await (Fetch "GET" "/api/nonce" NoBody) (fun a =>
       match a with
       | Text nonce => signIn_message provider address ens nonce
       | _ => Ret                              (* the nonce fetch rejects *)
       end))))
  | _ => Ret                                   (* listAccounts rejects *)
  end).

(** [signOut()] *)
Definition signOut : prog :=
  Upd (updateTitle (js "Untitled"))
  (Upd (updateNotepad [])
  (Await (Fetch "POST" "/api/sign_out" NoBody) (fun a =>
   match a with
   | Rejected => Ret
   | _ => Upd disconnectedState Ret            (* .then(() => disconnectedState()) *)
   end))).

Definition save_limit : Z := 43610.

Definition put_save (text : jsstr) : request :=
  Fetch "PUT" "/api/save" (JsonBody (JSON_stringify_text text)).

(** [save(e)] ([e?.preventDefault()] has no effect on the modelled state). *)
Definition save : prog :=
  Get (fun s =>
  let text := notepad_value s in
  if byteLength (JSON_stringify_text text) >? save_limit then
    Log (Alerted "Your message is too big.") Ret
  else
    Await (put_save text) (fun a =>
    match a with
    | Rejected => Ret
    | _ => Upd blockSave Ret                   (* .then(() => blockSave()) *)
    end)).

(** [const enum Providers] *)
Inductive Providers := METAMASK | WALLET_CONNECT.

Definition Providers_value (p : Providers) : string :=
  match p with METAMASK => "metamask" | WALLET_CONNECT => "walletconnect" end.

(** [connect(connector)] *)
Definition connect (connector : Providers) : prog :=
  Get (fun s =>
  if String.eqb (Providers_value connector) "metamask" && truthy (metamask s) then
    Await EthRequestAccounts (fun a =>
    match a with
    | Rejected => Ret
    | _ =>
      Upd (set_wagmiProvider (Some InjectedWeb3Provider))
      (Get (fun s =>
       match wagmiProvider s with
       | Some p => Spawn (signIn p) Ret
       | None => Ret
       end))
    end)
  else Log ModalOpened Ret).                   (* web3Modal.openModal() *)

(** The callback given to [watchSigner] ([console.log] omitted). *)
Definition watchSigner_callback (signer : signer_obs) : prog :=
  match signer with
  | SignerWithProvider p =>
      Upd (set_wagmiProvider (Some p))
      (Get (fun s =>
       match wagmiProvider s with
       | Some p => Spawn (signIn p) Ret
       | None => Ret
       end))
  | _ => Upd (set_wagmiProvider None) Ret
  end.

(** The synchronous part of the DOMContentLoaded handler after the /api/me
    fetch is issued: the metamask check and [saveButton]'s click listener
    (the other listeners it adds are never removed; [step] dispatches to
    them directly). *)
Definition domContentLoaded_listeners (s : st) : st :=
  let s := if strict_equals (typeof (metamask s)) JUndefined
           then set_metamaskButton_hidden true s else s in
  set_saveButton_onclick_save true s.

(** The DOMContentLoaded handler. *)
Definition domContentLoaded : prog :=
  Spawn
    (Await (Fetch "GET" "/api/me" NoBody) (fun a =>
     match a with
     | Response status json =>
         if statusOK status then
           match json with
           | Some u => Upd (connectedState_of u) Ret
           | None => Ret
           end
         else Upd disconnectedState Ret
     | _ => Ret
     end))
    (Upd domContentLoaded_listeners Ret).

(** ** Events of the environment *)

Inductive ui_event :=
| EvDeliver (i : nat) (a : answer)   (* the i-th pending request settles *)
| EvInput (v : jsstr)                (* the user edits the notepad to [v] *)
| EvClickSave
| EvClickClose
| EvClickDisconnect
| EvClickMetamask
| EvClickWalletConnect
| EvHotkey                           (* mod+s *)
| EvSigner (o : signer_obs).         (* the watchSigner callback fires *)

Definition step (m : machine) (e : ui_event) : machine :=
  let s := cur m in
  match e with
  | EvDeliver i a => deliver i a m
  | EvInput v => run (Upd enableSave Ret) (set_cur (updateNotepad v s) m)
  | EvClickSave =>
      if saveButton_hidden s then m
      else if saveButton_onclick_save s then run save m else m
  | EvClickClose =>
      if closeButton_disabled s then m
      else if closeButton_onclick_signOut s then run signOut m else m
  | EvClickDisconnect => if disconnectButton_hidden s then m else run signOut m
  | EvClickMetamask => if metamaskButton_hidden s then m else run (connect METAMASK) m
  | EvClickWalletConnect =>
      if walletConnectButton_hidden s then m else run (connect WALLET_CONNECT) m
  | EvHotkey => if mousetrap_mod_s m then run save m else m
  | EvSigner o => run (watchSigner_callback o) m
  end.

Definition exec (m : machine) (evs : list ui_event) : machine := fold_left step evs m.

(** Module load (watchSigner registered, mod+s bound) followed by the
    DOMContentLoaded handler, from the page state [s0] of the HTML. *)
Definition boot (s0 : st) : machine :=
  run domContentLoaded (mkMachine s0 [] [] true).

(** A sample page state for concrete runs: connect buttons visible, close
    button disabled, save and disconnect hidden, title "Untitled" (the
    page's HTML is not among the sources). *)
Definition page (eth : jsval) : st :=
  mkSt false false false true true false true true [] false [] (js "Untitled") None
       eth (js "notepad.example") (js "https://notepad.example").

(** The Disconnected affordances. *)
Definition disconnected_ui (s : st) : bool :=
  negb (walletConnectButton_hidden s) && saveButton_hidden s &&
  disconnectButton_hidden s && closeButton_disabled s &&
  negb (closeButton_onclick_signOut s).

(** ** Helpers for stating and running scenarios *)

(** [signOut()] called and its request settled with [a]. *)
Definition sign_out_settled (a : answer) (m : machine) : machine :=
  deliver (length (pending m)) a (run signOut m).

Definition sign_out_request : request := Fetch "POST" "/api/sign_out" NoBody.

(** A sample account in EIP-55 form and a sample nonce, for concrete runs. *)
Definition sample_address : jsstr := js "0x5aAeb6053F3E94C9b9A09f33669435E7Ef1BeAed".

Definition sample_nonce : jsstr := js "n1n1n1n1".

Definition sample_user (ens : option jsstr) : Api.user :=
  Api.mkUser (js "hello") sample_address ens.

(** Load with no session, click the metamask button, and let the wallet and
    the server answer up to the chain id, /api/nonce answering [nonce]. *)
Definition sign_in_until_sign (ens_outcome : answer) (nonce : jsstr) : list ui_event :=
  [EvDeliver 0 (Response 401 None); EvClickMetamask; EvDeliver 0 Resolved;
   EvDeliver 0 (Accounts [sample_address]); EvDeliver 0 ens_outcome;
   EvDeliver 0 (Text nonce); EvDeliver 0 (Network 1)].

(** The same with [sample_nonce], up to the POST /api/sign_in request. *)
Definition sign_in_until_verify (ens_outcome : answer) : list ui_event :=
  sign_in_until_sign ens_outcome sample_nonce ++ [EvDeliver 0 (Signature (js "sig"))].

(** A page loaded with a session for [sample_user], then edited. *)
Definition edited_session : machine :=
  exec (boot (page (JObject 0)))
       [EvDeliver 0 (Response 200 (Some (sample_user None))); EvInput (js "edit")].

(** After a load with a session, an edit and a completed save (the save
    button is then disabled and its click listener removed). *)
Definition saved_session_events : list ui_event :=
  [EvDeliver 0 (Response 200 (Some (sample_user None))); EvInput (js "edit");
   EvClickSave; EvDeliver 0 (Response 200 None)].


(** ** The maximize/restore toggle

    [toggleSize] and the notepad's size are touched only by [maximize],
    [restore] and the DOMContentLoaded handler, so they are modelled apart
    from [st]. *)

Inductive toggle_handler := Maximize | Restore.

Definition toggle_handler_eqb (a b : toggle_handler) : bool :=
  match a, b with
  | Maximize, Maximize | Restore, Restore => true
  | _, _ => false
  end.

Record toggle_st := mkToggle {
  toggleSize_listeners : list toggle_handler;   (* click listeners, in order *)
  toggleSize_ariaLabel : jsstr;
  notepad_style_width : jsstr;
  notepad_style_height : jsstr
}.

(** [addEventListener] ignores a listener already registered. *)
Definition add_listener (h : toggle_handler) (l : list toggle_handler) :=
  if existsb (toggle_handler_eqb h) l then l else l ++ [h].

Definition remove_listener (h : toggle_handler) (l : list toggle_handler) :=
  filter (fun x => negb (toggle_handler_eqb h x)) l.

(** [maximize] *)
Definition maximize (t : toggle_st) : toggle_st :=
  mkToggle (add_listener Restore (remove_listener Maximize (toggleSize_listeners t)))
           (js "Restore") (js "99.7vw") (js "91.7vh").

(** [restore] *)
Definition restore (t : toggle_st) : toggle_st :=
  mkToggle (add_listener Maximize (remove_listener Restore (toggleSize_listeners t)))
           (js "Maximize") (js "460px") (js "320px").

Definition run_toggle_handler (h : toggle_handler) : toggle_st -> toggle_st :=
  match h with Maximize => maximize | Restore => restore end.

(** A click dispatches to the listeners registered when it starts, skipping
    those removed by an earlier listener of the same dispatch. *)
Fixpoint dispatch_toggle (snapshot : list toggle_handler) (t : toggle_st) : toggle_st :=
  match snapshot with
  | [] => t
  | h :: rest =>
      let t := if existsb (toggle_handler_eqb h) (toggleSize_listeners t)
               then run_toggle_handler h t else t in
      dispatch_toggle rest t
  end.

Definition click_toggleSize (t : toggle_st) : toggle_st :=
  dispatch_toggle (toggleSize_listeners t) t.

(** [toggleSize.addEventListener("click", maximize)] in the DOMContentLoaded
    handler. *)
Definition toggle_loaded (t : toggle_st) : toggle_st :=
  mkToggle (add_listener Maximize (toggleSize_listeners t)) (toggleSize_ariaLabel t)
           (notepad_style_width t) (notepad_style_height t).

Fixpoint clicks_toggleSize (n : nat) (t : toggle_st) : toggle_st :=
  match n with O => t | S n' => clicks_toggleSize n' (click_toggleSize t) end.

(** Text made of printable ASCII other than the quote and the backslash:
    JSON.stringify copies it unescaped. *)
Definition plain_ascii (l : jsstr) : bool :=
  forallb (fun u => (32 <=? u) && (u <=? 126) && negb (u =? 34) && negb (u =? 92)) l.

(** The Connected-Clean affordances: connect buttons hidden, close button
    enabled with its signOut listener, save and disconnect shown, save
    disabled without listener, no unsaved-changes text, no unload guard. *)
Definition connected_ui (s : st) : bool :=
  metamaskButton_hidden s && walletConnectButton_hidden s &&
  closeButton_onclick_signOut s && negb (closeButton_disabled s) &&
  negb (saveButton_hidden s) && negb (disconnectButton_hidden s) &&
  saveButton_disabled s && negb (saveButton_onclick_save s) &&
  jsstr_eqb (unsaved_innerText s) [] && negb (window_onbeforeunload s).

(** The value [ens] takes in [signIn] once the ENS lookup has settled. *)
Definition ens_of_lookup (a : answer) : jsstr :=
  match a with Name n => nullish_or n [] | _ => [] end.

(** ** General lemmas on the machine *)

Example stringify_hello :
  JSON_stringify_text (js "hi") = js "{" ++ [34] ++ js "text" ++ [34] ++ js ":" ++ [34]
                                  ++ js "hi" ++ [34] ++ js "}".
Proof. reflexivity. Qed.

Example byteLength_hello : byteLength (JSON_stringify_text (js "hi")) = 13.
Proof. reflexivity. Qed.

Example byteLength_pair : byteLength [0xD83D; 0xDE00; 0xD800] = 7.
Proof. reflexivity. Qed.

Lemma nth_error_last {A} (l : list A) (x : A) : nth_error (l ++ [x]) (length l) = Some x.
Proof. induction l; simpl; auto. Qed.

Lemma remove_nth_last {A} (l : list A) (x : A) : remove_nth (length l) (l ++ [x]) = l.
Proof. induction l; simpl; [reflexivity | now rewrite IHl]. Qed.

(** Settling the most recent pending request resumes its continuation. *)
Lemma deliver_last (l : list (request * (answer -> prog))) r k s tr b a :
  deliver (length l) a (mkMachine s (l ++ [(r, k)]) tr b) = run (k a) (mkMachine s l tr b).
Proof. unfold deliver; simpl. now rewrite nth_error_last, remove_nth_last. Qed.

(** Resume the most recent pending request and run its continuation. *)
Ltac settle_last :=
  rewrite deliver_last; cbn [run cur pending trace mousetrap_mod_s];
  try unfold set_cur, log; cbn [cur pending trace mousetrap_mod_s].

Lemma run_mousetrap (p : prog) (m : machine) : mousetrap_mod_s (run p m) = mousetrap_mod_s m.
Proof.
  revert m; induction p; intro m; simpl; try reflexivity;
  repeat match goal with H : forall _, _ |- _ => rewrite H end; reflexivity.
Qed.

Lemma deliver_mousetrap i a m : mousetrap_mod_s (deliver i a m) = mousetrap_mod_s m.
Proof.
  unfold deliver. destruct (nth_error (pending m) i) as [[r k]|]; auto.
  now rewrite run_mousetrap.
Qed.

Lemma step_mousetrap m e : mousetrap_mod_s (step m e) = mousetrap_mod_s m.
Proof.
  destruct e; unfold step;
  repeat match goal with |- context [if ?c then _ else _] => destruct c eqn:? end;
  rewrite ?run_mousetrap, ?deliver_mousetrap; try reflexivity; congruence.
Qed.

Lemma exec_mousetrap evs : forall m, mousetrap_mod_s (exec m evs) = mousetrap_mod_s m.
Proof.
  unfold exec; induction evs as [|e evs IH]; intro m; simpl; auto.
  rewrite IH. apply step_mousetrap.
Qed.

Lemma typeof_not_strict_undefined (v : jsval) : strict_equals (typeof v) JUndefined = false.
Proof. destruct v; reflexivity. Qed.

(** The outcome of [save] on a machine, by the size check. *)
Lemma run_save m :
  run save m =
  if byteLength (JSON_stringify_text (notepad_value (cur m))) >? save_limit
  then log (Alerted "Your message is too big.") m
  else mkMachine (cur m)
         (pending m ++ [(put_save (notepad_value (cur m)),
                         fun a => match a with
                                  | Rejected => Ret
                                  | _ => Upd blockSave Ret
                                  end)])
         (Sent (put_save (notepad_value (cur m))) :: trace m) (mousetrap_mod_s m).
Proof.
  unfold save; cbn [run].
  destruct (byteLength (JSON_stringify_text (notepad_value (cur m))) >? save_limit); reflexivity.
Qed.

(** ** C1: the size guard of [save] *)

(** C1. [save] with notepad text D alerts the user and issues no request
    exactly when the UTF-8 length of [JSON.stringify({text: D})] exceeds
    43610; otherwise it issues exactly [PUT /api/save] with that body. *)
Theorem save_rejected_iff_oversize (m : machine) :
  let D := notepad_value (cur m) in
  let L := byteLength (JSON_stringify_text D) in
  ((trace (run save m) = Alerted "Your message is too big." :: trace m
    /\ pending (run save m) = pending m) <-> 43610 < L) /\
  (trace (run save m) = Sent (put_save D) :: trace m <-> L <= 43610).
Proof.
  intros D L. rewrite run_save. fold D L.
  destruct (L >? save_limit) eqn:E; unfold save_limit in E.
  - apply Z.gtb_lt in E. simpl. split; split; intros; auto.
    + discriminate.
    + lia.
  - rewrite Z.gtb_ltb, Z.ltb_ge in E. simpl. split; split; intros; auto.
    + destruct H; discriminate.
    + lia.
Qed.

(** ** Sign-out *)

Lemma run_signOut_cur m :
  cur (run signOut m) = updateNotepad [] (updateTitle (js "Untitled") (cur m)).
Proof. reflexivity. Qed.

Lemma sign_out_settled_eq a m :
  sign_out_settled a m =
  mkMachine (match a with
             | Rejected => updateNotepad [] (updateTitle (js "Untitled") (cur m))
             | _ => disconnectedState (updateNotepad [] (updateTitle (js "Untitled") (cur m)))
             end)
            (pending m) (Sent sign_out_request :: trace m) (mousetrap_mod_s m).
Proof.
  destruct m as [s l tr b]. unfold sign_out_settled, signOut.
  cbn [run set_cur cur pending trace mousetrap_mod_s].
  rewrite deliver_last. destruct a; reflexivity.
Qed.

Lemma disconnectedState_ui s : disconnected_ui (disconnectedState s) = true.
Proof. destruct s as [a b c d e f g h i j k l m n o p]; destruct n; reflexivity. Qed.

(** C8. Two successive sign-outs, each answered 200 by the server, leave
    the same page state: Disconnected, titled "Untitled", with an empty
    notepad; the second leaves nothing pending and logs no error, only its
    request. *)
Theorem sign_out_twice_same_state (m : machine) (j1 j2 : option Api.user) :
  let m1 := sign_out_settled (Response 200 j1) m in
  let m2 := sign_out_settled (Response 200 j2) m1 in
  cur m2 = cur m1 /\
  disconnected_ui (cur m1) = true /\
  title_innerText (cur m1) = js "Untitled" /\
  notepad_value (cur m1) = [] /\
  pending m2 = pending m1 /\
  trace m2 = Sent sign_out_request :: trace m1.
Proof.
  intros m1 m2. subst m1 m2. rewrite !sign_out_settled_eq. cbn [cur pending trace].
  destruct (cur m) as [a b c d e f g h i j k l n o p q]; destruct o;
  repeat split; reflexivity.
Qed.

(** C7 (as the code does it). Sign-out sets the title to "Untitled" and
    empties the notepad at once; the Disconnected affordances are applied
    when the sign-out request settles with a response of any status, and
    not at all when it fails with a transport error. *)
Theorem sign_out_disconnects_on_response (m : machine) :
  let s1 := updateNotepad [] (updateTitle (js "Untitled") (cur m)) in
  cur (run signOut m) = s1 /\
  cur (sign_out_settled Rejected m) = s1 /\
  (forall status json,
     cur (sign_out_settled (Response status json) m) = disconnectedState s1 /\
     disconnected_ui (cur (sign_out_settled (Response status json) m)) = true).
Proof.
  intros s1. split; [reflexivity|]. split.
  - rewrite sign_out_settled_eq. reflexivity.
  - intros status json. rewrite sign_out_settled_eq. cbn [cur].
    split; [reflexivity | apply disconnectedState_ui].
Qed.

(** ** The metamask button *)

(** C6 (as the code does it). [typeof metamask === undefined] compares a
    string with undefined and is never true: the DOMContentLoaded handler
    leaves the metamask button as the HTML has it, whatever
    [window.ethereum] is, and [disconnectedState] always shows it. *)
Theorem metamask_button_not_hidden_without_provider (s0 s : st) :
  metamaskButton_hidden (cur (boot s0)) = metamaskButton_hidden s0 /\
  metamaskButton_hidden (disconnectedState s) = false.
Proof.
  split.
  - unfold boot, domContentLoaded. cbn [run set_cur cur].
    unfold domContentLoaded_listeners. rewrite typeof_not_strict_undefined.
    destruct s0; reflexivity.
  - unfold disconnectedState. rewrite typeof_not_strict_undefined.
    destruct s; reflexivity.
Qed.

(** ** The mod+s hotkey *)

Lemma boot_mousetrap s0 : mousetrap_mod_s (boot s0) = true.
Proof. unfold boot. now rewrite run_mousetrap. Qed.

(** C10. In every state reached after page load, by any sequence of
    events, mod+s is still bound, and pressing it runs [save], which issues
    [PUT /api/save] when the payload is within the bound. *)
Theorem hotkey_saves_in_every_state (s0 : st) (evs : list ui_event) :
  let m := exec (boot s0) evs in
  byteLength (JSON_stringify_text (notepad_value (cur m))) <= 43610 ->
  mousetrap_mod_s m = true /\
  trace (step m EvHotkey) = Sent (put_save (notepad_value (cur m))) :: trace m.
Proof.
  intros m Hle.
  assert (Hb : mousetrap_mod_s m = true).
  { unfold m. rewrite exec_mousetrap. apply boot_mousetrap. }
  split; [exact Hb|].
  unfold step. rewrite Hb, run_save.
  replace (byteLength (JSON_stringify_text (notepad_value (cur m))) >? save_limit)
    with false.
  - reflexivity.
  - symmetry. rewrite Z.gtb_ltb. apply Z.ltb_ge. unfold save_limit. lia.
Qed.

(** ** Completion of a save *)

Lemma save_within_bound m :
  byteLength (JSON_stringify_text (notepad_value (cur m))) <= 43610 ->
  (byteLength (JSON_stringify_text (notepad_value (cur m))) >? save_limit) = false.
Proof. intro H. rewrite Z.gtb_ltb. apply Z.ltb_ge. unfold save_limit. lia. Qed.

(** A save within the bound, its request then settling with [a]. *)
Lemma save_settled_eq m a :
  byteLength (JSON_stringify_text (notepad_value (cur m))) <= 43610 ->
  deliver (length (pending m)) a (run save m) =
  mkMachine (match a with Rejected => cur m | _ => blockSave (cur m) end)
            (pending m) (Sent (put_save (notepad_value (cur m))) :: trace m)
            (mousetrap_mod_s m).
Proof.
  intro H. rewrite run_save, (save_within_bound m H).
  destruct m as [s l tr b]. cbn [cur pending trace mousetrap_mod_s].
  rewrite deliver_last. destruct a; reflexivity.
Qed.

(** C3 (what the code does). When the save request settles with a
    response, whatever its HTTP status, [blockSave] runs: the
    unsaved-changes text is emptied, the unload guard removed and the save
    button disabled; only a transport error leaves the page as it was. *)
Theorem save_response_of_any_status_clears_dirty (m : machine) (status : Z)
    (json : option Api.user) :
  byteLength (JSON_stringify_text (notepad_value (cur m))) <= 43610 ->
  let m' := deliver (length (pending m)) (Response status json) (run save m) in
  unsaved_innerText (cur m') = [] /\
  window_onbeforeunload (cur m') = false /\
  saveButton_disabled (cur m') = true /\
  cur (deliver (length (pending m)) Rejected (run save m)) = cur m.
Proof.
  intros H m'. subst m'. rewrite !(save_settled_eq m _ H). cbn [cur].
  destruct (cur m); repeat split; reflexivity.
Qed.

(** C2 (as the code does it). An edit made while a save request is in
    flight does not survive the save's completion: when the request
    settles with status 200, [blockSave] empties the unsaved-changes text,
    removes the unload guard and disables the save button, although the
    notepad holds the edited, unsaved text. *)
Theorem save_completion_clears_later_edit (m : machine) (v : jsstr) (json : option Api.user) :
  byteLength (JSON_stringify_text (notepad_value (cur m))) <= 43610 ->
  let m3 := deliver (length (pending m)) (Response 200 json) (step (run save m) (EvInput v)) in
  notepad_value (cur m3) = v /\
  unsaved_innerText (cur m3) = [] /\
  window_onbeforeunload (cur m3) = false /\
  saveButton_disabled (cur m3) = true /\
  saveButton_onclick_save (cur m3) = false.
Proof.
  intros H m3. subst m3.
  rewrite run_save, (save_within_bound m H).
  destruct m as [s l tr b]. unfold step.
  cbn [run cur pending trace mousetrap_mod_s].
  unfold set_cur. cbn [cur pending trace mousetrap_mod_s].
  rewrite deliver_last.
  destruct s; repeat split; reflexivity.
Qed.

(** ** Sign-in *)

Lemma updateTitle_title x s : title_innerText (updateTitle x s) = x.
Proof. destruct s; reflexivity. Qed.

Lemma updateTitle_location_host x s : location_host (updateTitle x s) = location_host s.
Proof. destruct s; reflexivity. Qed.

Lemma updateTitle_location_origin x s : location_origin (updateTitle x s) = location_origin s.
Proof. destruct s; reflexivity. Qed.

Lemma jsstr_eqb_nil_r (a : jsstr) : a <> [] -> jsstr_eqb a [] = false.
Proof.
  intro H. unfold jsstr_eqb. destruct (list_eq_dec Z.eq_dec a []); congruence.
Qed.

(** [connectedState] yields the Connected-Clean affordances. *)
Lemma connectedState_shape (text address : jsstr) (ens : option jsstr) (s : st) :
  let s' := connectedState text address ens s in
  connected_ui s' = true /\
  title_innerText s' = nullish_or ens address /\
  notepad_value s' = (if jsstr_eqb text [] then notepad_value s else text) /\
  wagmiProvider s' = wagmiProvider s.
Proof.
  intros s'. subst s'. unfold connectedState.
  destruct (jsstr_eqb text []); destruct s; repeat split.
Qed.

(** [signIn] once the account and the ENS lookup have come back: the page
    is titled with the ENS value and the nonce request is pending. *)
Lemma signIn_after_lookup (m : machine) (p : provider) (address : jsstr)
    (rest : list jsstr) (ens_outcome : answer) :
  address <> [] ->
  let i := length (pending m) in
  exists tr,
    deliver i ens_outcome (deliver i (Accounts (address :: rest)) (run (signIn p) m)) =
    mkMachine (updateTitle (ens_of_lookup ens_outcome) (cur m))
      (pending m ++
       [(Fetch "GET" "/api/nonce" NoBody,
         fun a => match a with
                  | Text nonce => signIn_message p address (ens_of_lookup ens_outcome) nonce
                  | _ => Ret
                  end)])
      (Sent (Fetch "GET" "/api/nonce" NoBody) :: tr) (mousetrap_mod_s m).
Proof.
  intros Ha i. subst i.
  destruct m as [s l tr b]. cbn [cur pending trace mousetrap_mod_s].
  unfold signIn. cbn [run cur pending trace mousetrap_mod_s].
  settle_last. rewrite (jsstr_eqb_nil_r address Ha).
  cbn [run cur pending trace mousetrap_mod_s].
  settle_last.
  destruct ens_outcome; cbn [run cur pending trace mousetrap_mod_s];
  try unfold set_cur, log; cbn [cur pending trace mousetrap_mod_s];
  eexists; reflexivity.
Qed.

(** [signIn] once the nonce and the chain id have come back: either the
    message is accepted and its signature is requested, or the constructor
    throws and nothing is pending. *)
Lemma signIn_after_network (m : machine) (p : provider) (address : jsstr)
    (rest : list jsstr) (ens_outcome : answer) (nonce : jsstr) (chainId : Z) :
  address <> [] ->
  let i := length (pending m) in
  let m3 := deliver i ens_outcome (deliver i (Accounts (address :: rest)) (run (signIn p) m)) in
  let challenge := Siwe.mkMessage (location_host (cur m)) address chainId
                     (location_origin (cur m)) (js "1") (js "SIWE Notepad Example")
                     (if jsstr_eqb nonce [] then Siwe.Generated else Siwe.Given nonce) in
  exists tr,
    deliver i (Network chainId) (deliver i (Text nonce) m3) =
    match Siwe.validateMessage challenge with
    | None =>
        mkMachine (updateTitle (ens_of_lookup ens_outcome) (cur m))
          (pending m ++
           [(SignMessage p challenge,
             fun a => match a with
                      | Signature signature =>
                          Await (Fetch "POST" "/api/sign_in"
                                   (SignInBody challenge (ens_of_lookup ens_outcome) signature))
                                signIn_response
                      | _ => Ret
                      end)])
          (Sent (SignMessage p challenge) :: tr) (mousetrap_mod_s m)
    | Some error =>
        mkMachine (updateTitle (ens_of_lookup ens_outcome) (cur m)) (pending m)
          (Thrown error :: tr) (mousetrap_mod_s m)
    end.
Proof.
  intros Ha i m3 challenge. subst i m3 challenge.
  destruct (signIn_after_lookup m p address rest ens_outcome Ha) as [tr3 E].
  rewrite E. clear E.
  rewrite deliver_last. cbn [run]. unfold signIn_message.
  cbn [run cur pending trace mousetrap_mod_s].
  rewrite deliver_last. cbn [run cur pending trace mousetrap_mod_s].
  rewrite !updateTitle_location_host, !updateTitle_location_origin.
  unfold Siwe.new_SiweMessage.
  destruct (Siwe.validateMessage _); cbn [run cur pending trace mousetrap_mod_s];
  try unfold log; cbn [cur pending trace mousetrap_mod_s]; eexists; reflexivity.
Qed.

(** [signIn] at the POST /api/sign_in request, for an accepted message. *)
Lemma signIn_at_verify (m : machine) (p : provider) (address : jsstr)
    (rest : list jsstr) (ens_outcome : answer) (nonce : jsstr) (chainId : Z)
    (signature : jsstr) :
  address <> [] ->
  let challenge := Siwe.mkMessage (location_host (cur m)) address chainId
                     (location_origin (cur m)) (js "1") (js "SIWE Notepad Example")
                     (if jsstr_eqb nonce [] then Siwe.Generated else Siwe.Given nonce) in
  Siwe.validateMessage challenge = None ->
  let i := length (pending m) in
  let m3 := deliver i ens_outcome (deliver i (Accounts (address :: rest)) (run (signIn p) m)) in
  let req := Fetch "POST" "/api/sign_in"
               (SignInBody challenge (ens_of_lookup ens_outcome) signature) in
  exists tr,
    deliver i (Signature signature)
      (deliver i (Network chainId) (deliver i (Text nonce) m3)) =
    mkMachine (updateTitle (ens_of_lookup ens_outcome) (cur m))
      (pending m ++ [(req, signIn_response)]) (Sent req :: tr) (mousetrap_mod_s m).
Proof.
  intros Ha challenge Hv i m3 req. subst i m3 req.
  destruct (signIn_after_network m p address rest ens_outcome nonce chainId Ha) as [tr5 E].
  cbv zeta in E. fold challenge in E. rewrite Hv in E. rewrite E.
  rewrite deliver_last. cbn [run cur pending trace mousetrap_mod_s].
  eexists; reflexivity.
Qed.

(** C9 (as the code does it). A sign-in on provider [p]: once the account
    [address] and some ENS outcome have come back, the nonce is requested;
    once the nonce [nonce] and the chain id [chainId] have come back,
    [new SiweMessage] is built with domain the page host, the address and
    chain id of the provider, uri the page origin, version "1", the fixed
    statement, and [nonce], or a nonce of [generateNonce()] when [nonce] is
    empty.  If the library accepts that message, a signature by [p] over it
    is requested; otherwise [signIn] throws the library's error and
    requests no signature. *)
Theorem signIn_signs_challenge (m : machine) (p : provider) (address : jsstr)
    (rest : list jsstr) (ens_outcome : answer) (nonce : jsstr) (chainId : Z) :
  address <> [] ->
  let i := length (pending m) in
  let m3 := deliver i ens_outcome (deliver i (Accounts (address :: rest)) (run (signIn p) m)) in
  let m5 := deliver i (Network chainId) (deliver i (Text nonce) m3) in
  let challenge := Siwe.mkMessage (location_host (cur m)) address chainId
                     (location_origin (cur m)) (js "1") (js "SIWE Notepad Example")
                     (if jsstr_eqb nonce [] then Siwe.Generated else Siwe.Given nonce) in
  map fst (pending m3) = map fst (pending m) ++ [Fetch "GET" "/api/nonce" NoBody] /\
  match Siwe.validateMessage challenge with
  | None =>
      map fst (pending m5) = map fst (pending m) ++ [SignMessage p challenge] /\
      hd_error (trace m5) = Some (Sent (SignMessage p challenge))
  | Some error =>
      pending m5 = pending m /\ hd_error (trace m5) = Some (Thrown error)
  end.
Proof.
  intros Ha i m3 m5 challenge.
  split.
  - subst m5 m3 i. destruct (signIn_after_lookup m p address rest ens_outcome Ha) as [tr E].
    rewrite E. cbn [pending]. rewrite map_app. reflexivity.
  - subst m5 m3 i challenge.
    destruct (signIn_after_network m p address rest ens_outcome nonce chainId Ha) as [tr E].
    cbv zeta in E. rewrite E.
    destruct (Siwe.validateMessage _); cbn [pending trace hd_error];
      [split; reflexivity | rewrite map_app; split; reflexivity].
Qed.

(** C5 (where it fails). With [ens] the empty string, [ens ?? address] is
    the empty string, so [connectedState] sets an empty title; in a full
    sign-in where the ENS lookup finds no name and the server returns
    [ens: ""], the title ends empty although the address is not. *)
Theorem empty_ens_gives_empty_title :
  (forall text address s,
     title_innerText (connectedState text address (Some []) s) = []) /\
  let m := exec (boot (page (JObject 0)))
                (sign_in_until_verify (Name None) ++
                 [EvDeliver 0 (Response 200 (Some (sample_user (Some []))))]) in
  title_innerText (cur m) = [] /\ notepad_value (cur m) = js "hello" /\
  sample_address <> [].
Proof.
  split.
  - intros. unfold connectedState. apply updateTitle_title.
  - vm_compute. repeat split; discriminate.
Qed.

(** ** The signer-change observer *)

(** C4 (as the code does it). When watchSigner reports no signer while
    the POST /api/sign_in request of a sign-in is in flight, the callback
    only sets [wagmiProvider] to undefined: the page is otherwise unchanged
    and the request keeps its continuation, so its later 200 response is
    applied by [connectedState] and the page ends Connected. *)
Theorem no_signer_keeps_verify_response (m : machine) (p : provider) (address : jsstr)
    (rest : list jsstr) (ens_outcome : answer) (nonce : jsstr) (chainId : Z)
    (signature : jsstr) (u : Api.user) :
  address <> [] ->
  let challenge := Siwe.mkMessage (location_host (cur m)) address chainId
                     (location_origin (cur m)) (js "1") (js "SIWE Notepad Example")
                     (if jsstr_eqb nonce [] then Siwe.Generated else Siwe.Given nonce) in
  Siwe.validateMessage challenge = None ->
  let i := length (pending m) in
  let m3 := deliver i ens_outcome (deliver i (Accounts (address :: rest)) (run (signIn p) m)) in
  let m6 := deliver i (Signature signature)
              (deliver i (Network chainId) (deliver i (Text nonce) m3)) in
  let m7 := step m6 (EvSigner NoSigner) in
  let m8 := deliver i (Response 200 (Some u)) m7 in
  cur m7 = set_wagmiProvider None (cur m6) /\
  pending m7 = pending m6 /\
  cur m8 = connectedState_of u (cur m7) /\
  connected_ui (cur m8) = true.
Proof.
  intros Ha challenge Hv i m3 m6 m7 m8.
  destruct (signIn_at_verify m p address rest ens_outcome nonce chainId signature Ha Hv)
    as [tr E].
  subst m8 m7 m6 m3 i. cbv zeta in E. rewrite E. clear E.
  unfold step, watchSigner_callback. cbn [run cur pending trace mousetrap_mod_s].
  unfold set_cur. cbn [cur pending trace mousetrap_mod_s].
  split; [reflexivity|]. split; [reflexivity|].
  rewrite deliver_last.
  assert (R : signIn_response (Response 200 (Some u)) = Upd (connectedState_of u) Ret)
    by reflexivity.
  rewrite R. cbn [run cur]. split; [reflexivity|].
  unfold connectedState_of. apply connectedState_shape.
Qed.

(** C4 (where it fails). The signer disappears while the sign-in request
    is in flight; its 200 response is applied afterwards and the page is
    left Connected, not Disconnected. *)
Lemma verify_response_applied_after_no_signer :
  let m := exec (boot (page (JObject 0)))
                (sign_in_until_verify (Name None) ++
                 [EvSigner NoSigner;
                  EvDeliver 0 (Response 200 (Some (sample_user None)))]) in
  wagmiProvider (cur m) = None /\ disconnected_ui (cur m) = false /\
  title_innerText (cur m) = sample_address /\ notepad_value (cur m) = js "hello".
Proof. vm_compute. repeat split. Qed.

(** C9 (where it fails). /api/nonce answers with an empty body: the
    message whose signature is requested carries a nonce of
    [generateNonce()], not the one the server sent. *)
Lemma empty_nonce_replaced_in_challenge :
  let m := exec (boot (page (JObject 0))) (sign_in_until_sign (Name None) []) in
  hd_error (trace m) =
    Some (Sent (SignMessage InjectedWeb3Provider
                  (Siwe.mkMessage (js "notepad.example") sample_address 1
                     (js "https://notepad.example") (js "1")
                     (js "SIWE Notepad Example") Siwe.Generated))).
Proof. vm_compute. reflexivity. Qed.

(** ** Concrete runs *)

Lemma save_response_of_any_status_clears_dirty_witness :
  byteLength (JSON_stringify_text (notepad_value (cur edited_session))) <= 43610 /\
  let m' := deliver (length (pending edited_session)) (Response 500 None)
                    (run save edited_session) in
  unsaved_innerText (cur m') = [] /\
  window_onbeforeunload (cur m') = false /\
  saveButton_disabled (cur m') = true /\
  cur (deliver (length (pending edited_session)) Rejected (run save edited_session))
  = cur edited_session.
Proof.
  assert (H : byteLength (JSON_stringify_text (notepad_value (cur edited_session))) <= 43610)
    by (apply Z.leb_le; vm_compute; reflexivity).
  split; [exact H | exact (save_response_of_any_status_clears_dirty edited_session 500 None H)].
Defined.

(** C2 (where it fails). Type "a", press mod+s, type "ab" while the PUT is
    in flight, then the server answers 200: the notepad holds the unsaved
    "ab" but the page shows no unsaved changes and has no unload guard. *)
Lemma edit_during_save_loses_dirty_state :
  let m := exec (boot (page (JObject 0)))
                [EvDeliver 0 (Response 200 (Some (sample_user None)));
                 EvInput (js "a"); EvHotkey; EvInput (js "ab");
                 EvDeliver 0 (Response 200 None)] in
  hd_error (trace m) = Some (Sent (put_save (js "a"))) /\
  notepad_value (cur m) = js "ab" /\
  unsaved_innerText (cur m) = [] /\
  window_onbeforeunload (cur m) = false.
Proof. vm_compute. repeat split. Qed.

Lemma save_completion_clears_later_edit_witness :
  byteLength (JSON_stringify_text (notepad_value (cur edited_session))) <= 43610 /\
  let m3 := deliver (length (pending edited_session)) (Response 200 None)
                    (step (run save edited_session) (EvInput (js "edit2"))) in
  notepad_value (cur m3) = js "edit2" /\
  unsaved_innerText (cur m3) = [] /\
  window_onbeforeunload (cur m3) = false /\
  saveButton_disabled (cur m3) = true /\
  saveButton_onclick_save (cur m3) = false.
Proof.
  assert (H : byteLength (JSON_stringify_text (notepad_value (cur edited_session))) <= 43610)
    by (apply Z.leb_le; vm_compute; reflexivity).
  split; [exact H|].
  exact (save_completion_clears_later_edit edited_session (js "edit2") None H).
Defined.

(** C7 (where it fails). Signed in, the user clicks disconnect and the
    sign-out request fails with a transport error: the title and notepad
    are cleared but the save and disconnect controls stay visible and the
    connect buttons hidden. *)
Lemma sign_out_transport_error_keeps_connected_ui :
  let m := exec (boot (page (JObject 0)))
                [EvDeliver 0 (Response 200 (Some (sample_user None)));
                 EvClickDisconnect; EvDeliver 0 Rejected] in
  title_innerText (cur m) = js "Untitled" /\ notepad_value (cur m) = [] /\
  disconnected_ui (cur m) = false /\ saveButton_hidden (cur m) = false /\
  walletConnectButton_hidden (cur m) = true.
Proof. vm_compute. repeat split. Qed.

Lemma signIn_signs_challenge_witness :
  sample_address <> [] /\
  let m := boot (page (JObject 0)) in
  let i := length (pending m) in
  let m3 := deliver i (Name None)
              (deliver i (Accounts [sample_address]) (run (signIn InjectedWeb3Provider) m)) in
  let m5 := deliver i (Network 1) (deliver i (Text sample_nonce) m3) in
  let challenge := Siwe.mkMessage (location_host (cur m)) sample_address 1
                     (location_origin (cur m)) (js "1") (js "SIWE Notepad Example")
                     (if jsstr_eqb sample_nonce [] then Siwe.Generated
                      else Siwe.Given sample_nonce) in
  map fst (pending m3) = map fst (pending m) ++ [Fetch "GET" "/api/nonce" NoBody] /\
  match Siwe.validateMessage challenge with
  | None =>
      map fst (pending m5) = map fst (pending m) ++ [SignMessage InjectedWeb3Provider challenge] /\
      hd_error (trace m5) = Some (Sent (SignMessage InjectedWeb3Provider challenge))
  | Some error =>
      pending m5 = pending m /\ hd_error (trace m5) = Some (Thrown error)
  end.
Proof.
  assert (H : sample_address <> []) by discriminate.
  split; [exact H|].
  exact (signIn_signs_challenge (boot (page (JObject 0))) InjectedWeb3Provider
           sample_address [] (Name None) sample_nonce 1 H).
Defined.

Lemma no_signer_keeps_verify_response_witness :
  let m := boot (page (JObject 0)) in
  let challenge := Siwe.mkMessage (location_host (cur m)) sample_address 1
                     (location_origin (cur m)) (js "1") (js "SIWE Notepad Example")
                     (if jsstr_eqb sample_nonce [] then Siwe.Generated
                      else Siwe.Given sample_nonce) in
  sample_address <> [] /\ Siwe.validateMessage challenge = None /\
  let i := length (pending m) in
  let m3 := deliver i (Name None)
              (deliver i (Accounts [sample_address]) (run (signIn InjectedWeb3Provider) m)) in
  let m6 := deliver i (Signature (js "sig"))
              (deliver i (Network 1) (deliver i (Text sample_nonce) m3)) in
  let m7 := step m6 (EvSigner NoSigner) in
  let m8 := deliver i (Response 200 (Some (sample_user None))) m7 in
  cur m7 = set_wagmiProvider None (cur m6) /\
  pending m7 = pending m6 /\
  cur m8 = connectedState_of (sample_user None) (cur m7) /\
  connected_ui (cur m8) = true.
Proof.
  intros m challenge.
  assert (Ha : sample_address <> []) by discriminate.
  assert (Hv : Siwe.validateMessage challenge = None) by (vm_compute; reflexivity).
  split; [exact Ha|]. split; [exact Hv|].
  exact (no_signer_keeps_verify_response m InjectedWeb3Provider sample_address [] (Name None)
           sample_nonce 1 (js "sig") (sample_user None) Ha Hv).
Defined.

Lemma hotkey_saves_in_every_state_witness :
  let m := exec (boot (page JUndefined)) saved_session_events in
  saveButton_onclick_save (cur m) = false /\
  byteLength (JSON_stringify_text (notepad_value (cur m))) <= 43610 /\
  mousetrap_mod_s m = true /\
  trace (step m EvHotkey) = Sent (put_save (notepad_value (cur m))) :: trace m.
Proof.
  assert (H : byteLength (JSON_stringify_text
                (notepad_value (cur (exec (boot (page JUndefined)) saved_session_events))))
              <= 43610) by (apply Z.leb_le; vm_compute; reflexivity).
  split; [vm_compute; reflexivity|]. split; [exact H|].
  exact (hotkey_saves_in_every_state (page JUndefined) saved_session_events H).
Defined.

(** * Further properties of the code *)

(** ** The maximize/restore toggle *)

Lemma click_single_maximize t :
  toggleSize_listeners t = [Maximize] -> click_toggleSize t = maximize t.
Proof. intro H. unfold click_toggleSize. rewrite H. simpl. now rewrite H. Qed.

Lemma click_single_restore t :
  toggleSize_listeners t = [Restore] -> click_toggleSize t = restore t.
Proof. intro H. unfold click_toggleSize. rewrite H. simpl. now rewrite H. Qed.

Lemma clicks_alternate n : forall t,
  (toggleSize_listeners t = [Maximize] ->
   toggleSize_listeners (clicks_toggleSize n t) =
   if Nat.even n then [Maximize] else [Restore]) /\
  (toggleSize_listeners t = [Restore] ->
   toggleSize_listeners (clicks_toggleSize n t) =
   if Nat.even n then [Restore] else [Maximize]).
Proof.
  induction n as [|n IH]; intro t; split; intro H; [exact H | exact H | |];
  cbn [clicks_toggleSize]; rewrite Nat.even_succ, <- Nat.negb_even.
  - rewrite (click_single_maximize t H).
    assert (Hr : toggleSize_listeners (maximize t) = [Restore])
      by (unfold maximize; simpl; rewrite H; reflexivity).
    rewrite (proj2 (IH _) Hr). destruct (Nat.even n); reflexivity.
  - rewrite (click_single_restore t H).
    assert (Hm : toggleSize_listeners (restore t) = [Maximize])
      by (unfold restore; simpl; rewrite H; reflexivity).
    rewrite (proj1 (IH _) Hm). destruct (Nat.even n); reflexivity.
Qed.

(** From the DOMContentLoaded handler on (with no listener in the HTML),
    exactly one of [maximize] and [restore] listens on [toggleSize]:
    [maximize] after an even number of clicks, [restore] after an odd one. *)
Theorem toggle_single_listener (t0 : toggle_st) (n : nat) :
  toggleSize_listeners t0 = [] ->
  toggleSize_listeners (clicks_toggleSize n (toggle_loaded t0)) =
  if Nat.even n then [Maximize] else [Restore].
Proof.
  intro H0. apply (proj1 (clicks_alternate n _)).
  unfold toggle_loaded; simpl; rewrite H0; reflexivity.
Qed.

(** Clicking [toggleSize] while [maximize] listens enlarges the notepad to
    99.7vw x 91.7vh with label "Restore"; a second click brings it back to
    460px x 320px with label "Maximize" and [maximize] listening again. *)
Theorem toggle_maximize_then_restore (t : toggle_st) :
  toggleSize_listeners t = [Maximize] ->
  let t1 := click_toggleSize t in
  t1 = mkToggle [Restore] (js "Restore") (js "99.7vw") (js "91.7vh") /\
  click_toggleSize t1 = mkToggle [Maximize] (js "Maximize") (js "460px") (js "320px").
Proof.
  intros H t1. subst t1. rewrite (click_single_maximize t H).
  unfold maximize at 1 2. rewrite H. simpl. split; [reflexivity|].
  rewrite click_single_restore by reflexivity. reflexivity.
Qed.

(** ** The size of the save payload for plain ASCII text *)

Lemma quote_units_plain l : plain_ascii l = true -> quote_units l = l.
Proof.
  induction l as [|u l IH]; simpl; intro H; [reflexivity|].
  apply andb_prop in H as [Hu Hl].
  repeat rewrite andb_true_iff in Hu. destruct Hu as [[[H1 H2] H3] H4].
  apply Z.leb_le in H1. apply Z.leb_le in H2.
  apply negb_true_iff, Z.eqb_neq in H3. apply negb_true_iff, Z.eqb_neq in H4.
  assert (Hh : is_high_surrogate u = false)
    by (unfold is_high_surrogate; apply andb_false_iff; left; apply Z.leb_gt; lia).
  rewrite Hh. unfold quote_unit.
  repeat match goal with
  | |- context [?a =? ?b] => replace (a =? b) with false by (symmetry; apply Z.eqb_neq; lia)
  end.
  replace (u <? 32) with false by (symmetry; apply Z.ltb_ge; lia).
  replace (is_surrogate u) with false
    by (unfold is_surrogate; symmetry; apply andb_false_iff; left; apply Z.leb_gt; lia).
  simpl. now rewrite IH.
Qed.

Lemma byteLength_ascii l :
  forallb (fun u => u <? 128) l = true -> byteLength l = Z.of_nat (length l).
Proof.
  induction l as [|u l IH]; intro H; [reflexivity|].
  cbn [byteLength forallb] in *. apply andb_prop in H as [Hu Hl].
  rewrite Hu, (IH Hl). change (length (u :: l)) with (S (length l)).
  rewrite Nat2Z.inj_succ. lia.
Qed.

Lemma plain_ascii_ascii l : plain_ascii l = true -> forallb (fun u => u <? 128) l = true.
Proof.
  induction l as [|u l IH]; simpl; intro H; [reflexivity|].
  apply andb_prop in H as [Hu Hl]. rewrite IH by exact Hl.
  repeat rewrite andb_true_iff in Hu. destruct Hu as [[[_ H2] _] _].
  apply Z.leb_le in H2. rewrite andb_true_r. apply Z.ltb_lt. lia.
Qed.

(** For text of printable ASCII without quotes or backslashes, the payload
    [{"text":...}] takes exactly 11 bytes more than the text, so [save]
    sends it exactly when the text has at most 43599 characters. *)
Theorem save_plain_ascii_limit (m : machine) :
  let D := notepad_value (cur m) in
  plain_ascii D = true ->
  byteLength (JSON_stringify_text D) = Z.of_nat (length D) + 11 /\
  (trace (run save m) = Sent (put_save D) :: trace m <-> Z.of_nat (length D) <= 43599).
Proof.
  intros D H.
  assert (HL : byteLength (JSON_stringify_text D) = Z.of_nat (length D) + 11).
  { unfold JSON_stringify_text. rewrite (quote_units_plain D H).
    rewrite byteLength_ascii.
    - rewrite !length_app. simpl. lia.
    - rewrite !forallb_app, (plain_ascii_ascii D H). reflexivity. }
  split; [exact HL|].
  rewrite run_save. fold D. rewrite HL. unfold save_limit.
  destruct (Z.of_nat (length D) + 11 >? 43610) eqn:E.
  - apply Z.gtb_lt in E. simpl. split; intro C; [discriminate | lia].
  - rewrite Z.gtb_ltb, Z.ltb_ge in E. simpl. split; intro; [lia | reflexivity].
Qed.

(** ** Editing and saving *)

(** An edit enables the save button: clicking it (while shown) then sends
    [PUT /api/save] with the edited text, when within the size bound. *)
Theorem input_then_click_save_sends (m : machine) (v : jsstr) :
  saveButton_hidden (cur m) = false ->
  byteLength (JSON_stringify_text v) <= 43610 ->
  let m1 := step m (EvInput v) in
  unsaved_innerText (cur m1) = js "- (***Unsaved Changes***)" /\
  window_onbeforeunload (cur m1) = true /\
  trace (step m1 EvClickSave) = Sent (put_save v) :: trace m.
Proof.
  intros Hh Hb m1.
  assert (Hc : cur m1 = enableSave (updateNotepad v (cur m))) by reflexivity.
  assert (Ht : trace m1 = trace m) by reflexivity.
  assert (Hv : notepad_value (cur m1) = v) by (rewrite Hc; destruct (cur m); reflexivity).
  split; [rewrite Hc; destruct (cur m); reflexivity|].
  split; [rewrite Hc; destruct (cur m); reflexivity|].
  unfold step at 1.
  replace (saveButton_hidden (cur m1)) with false
    by (rewrite Hc; destruct (cur m); simpl in *; congruence).
  replace (saveButton_onclick_save (cur m1)) with true
    by (rewrite Hc; destruct (cur m); reflexivity).
  rewrite run_save, Hv, <- Ht.
  replace (byteLength (JSON_stringify_text v) >? save_limit) with false
    by (symmetry; rewrite Z.gtb_ltb; apply Z.ltb_ge; unfold save_limit; lia).
  reflexivity.
Qed.

(** Once a save has completed, clicking the save button does nothing (its
    listener was removed) until the next edit. *)
Theorem click_save_after_save_is_noop (m : machine) (a : answer) :
  byteLength (JSON_stringify_text (notepad_value (cur m))) <= 43610 ->
  a <> Rejected ->
  let m' := deliver (length (pending m)) a (run save m) in
  step m' EvClickSave = m'.
Proof.
  intros Hb Ha m'. subst m'. rewrite (save_settled_eq m a Hb).
  unfold step. cbn [cur].
  destruct a; [congruence| ..];
  destruct (cur m) as [x1 x2 x3 x4 x5 x6 x7 x8 x9 x10 x11 x12 x13 x14 x15 x16];
  destruct x5; reflexivity.
Qed.

(** ** Entering the Connected and Disconnected states *)

(** The /api/me answer at page load: a 200 with a user enters the
    Connected-Clean state for that user. *)
Theorem me_ok_connects (s0 : st) (u : Api.user) :
  let s := cur (deliver 0 (Response 200 (Some u)) (boot s0)) in
  s = connectedState_of u (domContentLoaded_listeners s0) /\
  connected_ui s = true /\
  title_innerText s = nullish_or (Api.ens u) (Api.address u).
Proof.
  intros s. subst s.
  assert (E : cur (deliver 0 (Response 200 (Some u)) (boot s0)) =
              connectedState_of u (domContentLoaded_listeners s0)) by reflexivity.
  rewrite E. split; [reflexivity|]. unfold connectedState_of.
  destruct (connectedState_shape (Api.text u) (Api.address u) (Api.ens u)
              (domContentLoaded_listeners s0)) as [H1 [H2 _]].
  split; assumption.
Qed.

(** Any other /api/me status enters the Disconnected state. *)
Theorem me_error_disconnects (s0 : st) (status : Z) (json : option Api.user) :
  status <> 200 ->
  let s := cur (deliver 0 (Response status json) (boot s0)) in
  s = disconnectedState (domContentLoaded_listeners s0) /\ disconnected_ui s = true.
Proof.
  intros H s. subst s.
  assert (E : cur (deliver 0 (Response status json) (boot s0)) =
              disconnectedState (domContentLoaded_listeners s0)).
  { unfold deliver, boot, domContentLoaded. cbn.
    unfold statusOK. replace (status =? 200) with false by (symmetry; apply Z.eqb_neq; exact H).
    reflexivity. }
  rewrite E. split; [reflexivity | apply disconnectedState_ui].
Qed.

(** ** Connecting a wallet *)

(** With an injected provider, [connect(METAMASK)] first asks for the
    accounts; if the user declines, nothing else happens; once granted,
    [wagmiProvider] is the injected provider and sign-in starts by listing
    its accounts. *)
Theorem connect_metamask_requests_accounts (m : machine) :
  truthy (metamask (cur m)) = true ->
  let i := length (pending m) in
  let m1 := run (connect METAMASK) m in
  hd_error (trace m1) = Some (Sent EthRequestAccounts) /\
  deliver i Rejected m1 = mkMachine (cur m) (pending m) (trace m1) (mousetrap_mod_s m) /\
  wagmiProvider (cur (deliver i Resolved m1)) = Some InjectedWeb3Provider /\
  hd_error (trace (deliver i Resolved m1)) = Some (Sent (ListAccounts InjectedWeb3Provider)).
Proof.
  intros H i m1. subst i m1.
  destruct m as [s l tr b]. cbn [cur] in H.
  unfold connect. cbn [run cur]. rewrite H. cbn [andb].
  replace (String.eqb (Providers_value METAMASK) "metamask") with true by reflexivity.
  cbn [andb run cur pending trace mousetrap_mod_s].
  split; [reflexivity|].
  split; [rewrite deliver_last; reflexivity|].
  rewrite deliver_last. cbn [run]. unfold set_cur. cbn [cur].
  destruct s; split; reflexivity.
Qed.

(** A signer with a provider reported by watchSigner becomes
    [wagmiProvider], and sign-in starts by listing its accounts. *)
Theorem signer_with_provider_starts_signIn (m : machine) (p : provider) :
  let m' := step m (EvSigner (SignerWithProvider p)) in
  wagmiProvider (cur m') = Some p /\
  map fst (pending m') = map fst (pending m) ++ [ListAccounts p] /\
  hd_error (trace m') = Some (Sent (ListAccounts p)).
Proof.
  intros m'. subst m'. destruct m as [s l tr b].
  unfold step, watchSigner_callback. cbn [run cur]. unfold set_cur.
  cbn [cur pending trace mousetrap_mod_s].
  destruct s; cbn. rewrite map_app. repeat split.
Qed.

(** ** Sign-in *)

(** When the wallet lists no account (or an empty first address), [signIn]
    throws "Address not found." and sends nothing more; the page is
    unchanged. *)
Theorem signIn_without_address (m : machine) (p : provider) (accounts : list jsstr) :
  hd [] accounts = [] ->
  let m' := deliver (length (pending m)) (Accounts accounts) (run (signIn p) m) in
  cur m' = cur m /\ pending m' = pending m /\
  trace m' = Thrown "Address not found." :: Sent (ListAccounts p) :: trace m.
Proof.
  intros H m'. subst m'. destruct m as [s l tr b].
  unfold signIn. cbn [run cur pending trace mousetrap_mod_s].
  settle_last.
  replace (match accounts with [] => [] | x :: _ => x end) with (@nil Z)
    by (destruct accounts; simpl in *; congruence).
  cbn. repeat split.
Qed.

(** Once the ENS lookup settles, [signIn] titles the page with the name
    found, or the empty string when the lookup gives null or fails (logged
    as an error), and asks the server for a nonce. *)
Theorem signIn_title_then_nonce (m : machine) (p : provider) (address : jsstr)
    (rest : list jsstr) (ens_outcome : answer) :
  address <> [] ->
  let i := length (pending m) in
  let m3 := deliver i ens_outcome (deliver i (Accounts (address :: rest)) (run (signIn p) m)) in
  title_innerText (cur m3) = ens_of_lookup ens_outcome /\
  hd_error (trace m3) = Some (Sent (Fetch "GET" "/api/nonce" NoBody)) /\
  (In ConsoleError (trace m3) <-> (In ConsoleError (trace m) \/
                                   match ens_outcome with Name _ => False | _ => True end)).
Proof.
  intros Ha i m3. subst i m3.
  destruct m as [s l tr b]. cbn [cur pending trace mousetrap_mod_s].
  unfold signIn. cbn [run cur pending trace mousetrap_mod_s].
  settle_last. rewrite (jsstr_eqb_nil_r address Ha).
  cbn [run cur pending trace mousetrap_mod_s].
  settle_last.
  destruct ens_outcome; cbn [run cur pending trace mousetrap_mod_s];
  try unfold set_cur, log; cbn [cur pending trace mousetrap_mod_s];
  (split; [destruct s; reflexivity|]); (split; [reflexivity|]);
  simpl; intuition congruence.
Qed.

(** After the signature of an accepted message, [signIn] posts the
    message, the ENS value and the signature to /api/sign_in.  A 200
    response whose body parses enters the Connected state for the user it
    holds; a 200 whose body does not parse changes nothing; any other
    status changes nothing and logs an error only when the body parses. *)
Theorem signIn_verify_outcome (m : machine) (p : provider) (address : jsstr)
    (rest : list jsstr) (ens_outcome : answer) (nonce : jsstr) (chainId : Z)
    (signature : jsstr) :
  address <> [] ->
  let challenge := Siwe.mkMessage (location_host (cur m)) address chainId
                     (location_origin (cur m)) (js "1") (js "SIWE Notepad Example")
                     (if jsstr_eqb nonce [] then Siwe.Generated else Siwe.Given nonce) in
  Siwe.validateMessage challenge = None ->
  let i := length (pending m) in
  let m3 := deliver i ens_outcome (deliver i (Accounts (address :: rest)) (run (signIn p) m)) in
  let m6 := deliver i (Signature signature)
              (deliver i (Network chainId) (deliver i (Text nonce) m3)) in
  hd_error (trace m6) =
    Some (Sent (Fetch "POST" "/api/sign_in"
                  (SignInBody challenge (ens_of_lookup ens_outcome) signature))) /\
  (forall u, cur (deliver i (Response 200 (Some u)) m6) = connectedState_of u (cur m6)) /\
  cur (deliver i (Response 200 None) m6) = cur m6 /\
  (forall status json, status <> 200 ->
     cur (deliver i (Response status json) m6) = cur m6 /\
     trace (deliver i (Response status json) m6) =
       match json with Some _ => ConsoleError :: trace m6 | None => trace m6 end).
Proof.
  intros Ha challenge Hv i m3 m6.
  destruct (signIn_at_verify m p address rest ens_outcome nonce chainId signature Ha Hv)
    as [tr E].
  subst m6 m3 i. cbv zeta in E. rewrite E. clear E.
  split; [reflexivity|].
  split; [intro u; rewrite deliver_last; reflexivity|].
  split; [rewrite deliver_last; reflexivity|].
  intros code json Hs. rewrite deliver_last. unfold signIn_response, statusOK.
  replace (code =? 200) with false by (symmetry; apply Z.eqb_neq; exact Hs).
  destruct json; cbn [run cur trace]; unfold log; cbn [cur trace]; split; reflexivity.
Qed.

(** ** Sign-out and the click gating *)

(** Sign-out, however its request settles, leaves the unsaved-changes
    text, the unload guard and the save button's state and listener as
    they were: an unload guard set by an edit survives sign-out. *)
Theorem signOut_keeps_unsaved_state (m : machine) (a : answer) :
  let s' := cur (sign_out_settled a m) in
  unsaved_innerText s' = unsaved_innerText (cur m) /\
  window_onbeforeunload s' = window_onbeforeunload (cur m) /\
  saveButton_onclick_save s' = saveButton_onclick_save (cur m) /\
  saveButton_disabled s' = saveButton_disabled (cur m).
Proof.
  intros s'. subst s'. rewrite sign_out_settled_eq. cbn [cur].
  destruct a; destruct (cur m); repeat split.
Qed.

(** Which clicks do something: in the Connected state the connect buttons
    are hidden and inert while the close and disconnect buttons sign out;
    in the Disconnected state the close, disconnect and save buttons are
    inert. *)
Theorem clicks_gated_by_state (m : machine) (s : st) (text address : jsstr)
    (ens : option jsstr) :
  let mc := set_cur (connectedState text address ens s) m in
  let md := set_cur (disconnectedState s) m in
  step mc EvClickMetamask = mc /\
  step mc EvClickWalletConnect = mc /\
  step mc EvClickClose = run signOut mc /\
  step mc EvClickDisconnect = run signOut mc /\
  step md EvClickClose = md /\
  step md EvClickDisconnect = md /\
  step md EvClickSave = md.
Proof.
  intros mc md. subst mc md.
  destruct s; unfold connectedState, disconnectedState;
  destruct (jsstr_eqb text []); repeat split.
Qed.

(** ** Witnesses of the further properties *)

Lemma toggle_single_listener_witness :
  toggleSize_listeners (mkToggle [] [] [] []) = [] /\
  toggleSize_listeners (clicks_toggleSize 3 (toggle_loaded (mkToggle [] [] [] []))) =
  if Nat.even 3 then [Maximize] else [Restore].
Proof.
  assert (H : toggleSize_listeners (mkToggle [] [] [] []) = []) by reflexivity.
  split; [exact H | exact (toggle_single_listener _ 3 H)].
Defined.

Lemma toggle_maximize_then_restore_witness :
  toggleSize_listeners (mkToggle [Maximize] [] [] []) = [Maximize] /\
  let t1 := click_toggleSize (mkToggle [Maximize] [] [] []) in
  t1 = mkToggle [Restore] (js "Restore") (js "99.7vw") (js "91.7vh") /\
  click_toggleSize t1 = mkToggle [Maximize] (js "Maximize") (js "460px") (js "320px").
Proof.
  assert (H : toggleSize_listeners (mkToggle [Maximize] [] [] []) = [Maximize]) by reflexivity.
  split; [exact H | exact (toggle_maximize_then_restore _ H)].
Defined.

Lemma save_plain_ascii_limit_witness :
  plain_ascii (notepad_value (cur edited_session)) = true /\
  byteLength (JSON_stringify_text (notepad_value (cur edited_session))) =
    Z.of_nat (length (notepad_value (cur edited_session))) + 11 /\
  (trace (run save edited_session) =
     Sent (put_save (notepad_value (cur edited_session))) :: trace edited_session <->
   Z.of_nat (length (notepad_value (cur edited_session))) <= 43599).
Proof.
  assert (H : plain_ascii (notepad_value (cur edited_session)) = true)
    by (vm_compute; reflexivity).
  split; [exact H | exact (save_plain_ascii_limit edited_session H)].
Defined.

Lemma input_then_click_save_sends_witness :
  let m := exec (boot (page (JObject 0))) [EvDeliver 0 (Response 200 (Some (sample_user None)))] in
  saveButton_hidden (cur m) = false /\
  byteLength (JSON_stringify_text (js "x")) <= 43610 /\
  let m1 := step m (EvInput (js "x")) in
  unsaved_innerText (cur m1) = js "- (***Unsaved Changes***)" /\
  window_onbeforeunload (cur m1) = true /\
  trace (step m1 EvClickSave) = Sent (put_save (js "x")) :: trace m.
Proof.
  intro m.
  assert (H1 : saveButton_hidden (cur m) = false) by (vm_compute; reflexivity).
  assert (H2 : byteLength (JSON_stringify_text (js "x")) <= 43610)
    by (apply Z.leb_le; vm_compute; reflexivity).
  split; [exact H1|]. split; [exact H2|].
  exact (input_then_click_save_sends m (js "x") H1 H2).
Defined.

Lemma click_save_after_save_is_noop_witness :
  byteLength (JSON_stringify_text (notepad_value (cur edited_session))) <= 43610 /\
  Response 200 None <> Rejected /\
  let m' := deliver (length (pending edited_session)) (Response 200 None)
                    (run save edited_session) in
  step m' EvClickSave = m'.
Proof.
  assert (H : byteLength (JSON_stringify_text (notepad_value (cur edited_session))) <= 43610)
    by (apply Z.leb_le; vm_compute; reflexivity).
  assert (Ha : Response 200 None <> Rejected) by discriminate.
  split; [exact H|]. split; [exact Ha|].
  exact (click_save_after_save_is_noop edited_session _ H Ha).
Defined.

Lemma me_error_disconnects_witness :
  401 <> 200 /\
  let s := cur (deliver 0 (Response 401 None) (boot (page (JObject 0)))) in
  s = disconnectedState (domContentLoaded_listeners (page (JObject 0))) /\
  disconnected_ui s = true.
Proof.
  assert (H : 401 <> 200) by discriminate.
  split; [exact H | exact (me_error_disconnects (page (JObject 0)) 401 None H)].
Defined.

Lemma connect_metamask_requests_accounts_witness :
  let m := boot (page (JObject 0)) in
  truthy (metamask (cur m)) = true /\
  let i := length (pending m) in
  let m1 := run (connect METAMASK) m in
  hd_error (trace m1) = Some (Sent EthRequestAccounts) /\
  deliver i Rejected m1 = mkMachine (cur m) (pending m) (trace m1) (mousetrap_mod_s m) /\
  wagmiProvider (cur (deliver i Resolved m1)) = Some InjectedWeb3Provider /\
  hd_error (trace (deliver i Resolved m1)) = Some (Sent (ListAccounts InjectedWeb3Provider)).
Proof.
  intro m.
  assert (H : truthy (metamask (cur m)) = true) by (vm_compute; reflexivity).
  split; [exact H | exact (connect_metamask_requests_accounts m H)].
Defined.

Lemma signIn_without_address_witness :
  let m := boot (page (JObject 0)) in
  hd [] (@nil jsstr) = [] /\
  let m' := deliver (length (pending m)) (Accounts []) (run (signIn InjectedWeb3Provider) m) in
  cur m' = cur m /\ pending m' = pending m /\
  trace m' = Thrown "Address not found." :: Sent (ListAccounts InjectedWeb3Provider) :: trace m.
Proof.
  intro m.
  assert (H : hd [] (@nil jsstr) = []) by reflexivity.
  split; [exact H | exact (signIn_without_address m InjectedWeb3Provider [] H)].
Defined.

Lemma signIn_title_then_nonce_witness :
  let m := boot (page (JObject 0)) in
  sample_address <> [] /\
  let i := length (pending m) in
  let m3 := deliver i Rejected
              (deliver i (Accounts [sample_address]) (run (signIn InjectedWeb3Provider) m)) in
  title_innerText (cur m3) = ens_of_lookup Rejected /\
  hd_error (trace m3) = Some (Sent (Fetch "GET" "/api/nonce" NoBody)) /\
  (In ConsoleError (trace m3) <-> (In ConsoleError (trace m) \/
                                   match Rejected with Name _ => False | _ => True end)).
Proof.
  intro m.
  assert (H : sample_address <> []) by discriminate.
  split; [exact H|].
  exact (signIn_title_then_nonce m InjectedWeb3Provider sample_address [] Rejected H).
Defined.

Lemma signIn_verify_outcome_witness :
  let m := boot (page (JObject 0)) in
  let challenge := Siwe.mkMessage (location_host (cur m)) sample_address 1
                     (location_origin (cur m)) (js "1") (js "SIWE Notepad Example")
                     (if jsstr_eqb sample_nonce [] then Siwe.Generated
                      else Siwe.Given sample_nonce) in
  sample_address <> [] /\ Siwe.validateMessage challenge = None /\
  let i := length (pending m) in
  let m3 := deliver i (Name None)
              (deliver i (Accounts [sample_address]) (run (signIn InjectedWeb3Provider) m)) in
  let m6 := deliver i (Signature (js "sig"))
              (deliver i (Network 1) (deliver i (Text sample_nonce) m3)) in
  hd_error (trace m6) =
    Some (Sent (Fetch "POST" "/api/sign_in"
                  (SignInBody challenge (ens_of_lookup (Name None)) (js "sig")))) /\
  (forall u, cur (deliver i (Response 200 (Some u)) m6) = connectedState_of u (cur m6)) /\
  cur (deliver i (Response 200 None) m6) = cur m6 /\
  (forall status json, status <> 200 ->
     cur (deliver i (Response status json) m6) = cur m6 /\
     trace (deliver i (Response status json) m6) =
       match json with Some _ => ConsoleError :: trace m6 | None => trace m6 end).
Proof.
  intros m challenge.
  assert (Ha : sample_address <> []) by discriminate.
  assert (Hv : Siwe.validateMessage challenge = None) by (vm_compute; reflexivity).
  split; [exact Ha|]. split; [exact Hv|].
  exact (signIn_verify_outcome m InjectedWeb3Provider sample_address [] (Name None)
           sample_nonce 1 (js "sig") Ha Hv).
Defined.
